(** * pyejabberd: the descriptor-driven dispatcher of the XML-RPC client

    A shallow embedding of [src/pyejabberd/client.py] and
    [src/pyejabberd/definitions.py].

    - Python values are an inductive type; dictionaries are finite maps
      keyed by strings (keyword names and XML-RPC struct member names are
      strings).
    - Exceptions are a sum type; a computation that may raise returns a
      [result].
    - Dictionary objects that are passed by reference (the keyword
      dictionary of [_call_api] and its copies) live in a heap; the calls
      made on the XML-RPC proxy are logged.  [_call_api] is written in a
      state-and-exception monad over that world.
    - A Python method is a function of the list of its positional
      arguments, so that a call with the wrong number of arguments is a
      [TypeError], as it is in Python. *)

From Stdlib Require Import ZArith Ascii.
From stdpp Require Import gmap strings list fin_maps pretty.

Set Warnings "-register-all".
Open Scope Z_scope.

(** ** Python values and exceptions

    The values of XML-RPC replies and of keyword arguments: [None],
    booleans, integers, strings, lists and dictionaries ([PObject] stands
    for any other object, such as the [api] instance handed to the hooks).
    Values are immutable; floating-point numbers are left out. *)

Inductive pyval : Type :=
  | PNone
  | PBool (b : bool)
  | PInt (n : Z)
  | PStr (s : string)
  | PList (items : list pyval)
  | PDict (bindings : gmap string pyval)
  | PObject (label : string).

Abbreviation dict := (gmap string pyval).

(** The exceptions of Python that the code can raise, those of the
    library ([IllegalArgumentError] with its message, [ValidationError]
    with the offending value, [UserAlreadyRegisteredError] with the user
    name its message is formatted from) and whatever the proxy raises.
    The last two have no counterpart in Python: a reference to no object,
    and a dictionary key that is hashable but not a string. *)
Inductive exn : Type :=
  | TypeError
  | AttributeError
  | KeyError (key : string)
  | ValueError
  | IllegalArgumentError (message : string)
  | ValidationError (value : pyval)
  | UserAlreadyRegisteredError (username : pyval)
  | TransportError (detail : pyval)
  | DanglingReference
  | NonStringKey.

Inductive result (A : Type) : Type :=
  | Return (a : A)
  | Raise (e : exn).
Arguments Return {A} a.
Arguments Raise {A} e.

#[global] Instance result_ret : MRet result := fun A a => Return a.
#[global] Instance result_bind : MBind result := fun A B k r =>
  match r with
  | Return a => k a
  | Raise e => Raise e
  end.

Definition is_Return {A} (r : result A) : bool :=
  match r with Return _ => true | Raise _ => false end.

Fixpoint mapR {A B} (f : A -> result B) (l : list A) : result (list B) :=
  match l with
  | [] => Return []
  | x :: rest => y ← f x; ys ← mapR f rest; Return (y :: ys)
  end.

(** [o.get(key, default)]: only dictionaries have the attribute. *)
Definition py_get (o : pyval) (key : string) (default_ : pyval) : result pyval :=
  match o with
  | PDict d => Return (default default_ (d !! key))
  | _ => Raise AttributeError
  end.

(** [o[key]] for a string key. *)
Definition py_getitem (o : pyval) (key : string) : result pyval :=
  match o with
  | PDict d =>
      match d !! key with
      | Some v => Return v
      | None => Raise (KeyError key)
      end
  | _ => Raise TypeError
  end.

(** [d[key] = value]: lists and dictionaries are unhashable; the model's
    dictionaries hold string keys only. *)
Definition py_setitem (d : dict) (key value : pyval) : result dict :=
  match key with
  | PStr k => Return (<[k := value]> d)
  | PList _ | PDict _ => Raise TypeError
  | _ => Raise NonStringKey
  end.

(** [v == n] for an integer literal [n]; [True == 1] and [False == 0]. *)
Definition eq_int (v : pyval) (n : Z) : bool :=
  match v with
  | PInt m => m =? n
  | PBool b => (if b then 1 else 0) =? n
  | _ => false
  end.

(** What a [for] loop or an unpacking assignment iterates over. *)
Definition py_iter (o : pyval) : result (list pyval) :=
  match o with
  | PList items => Return items
  | PDict d => Return ((fun kv : string * pyval => PStr kv.1) <$> map_to_list d)
  | PStr s => Return ((fun c => PStr (String c EmptyString)) <$> String.list_ascii_of_string s)
  | _ => Raise TypeError
  end.

(** [a, b = o] *)
Definition py_unpack2 (o : pyval) : result (pyval * pyval) :=
  items ← py_iter o;
  match items with
  | [a; b] => Return (a, b)
  | _ => Raise ValueError
  end.

(** ** Method definitions

    [def f(self, a, b, c)] called as [obj.f(x1, ..., xn)] binds the
    positional arguments to the parameters and raises [TypeError] unless
    their numbers agree. *)

Definition def3 {A} (body : pyval -> pyval -> pyval -> result A)
    (positional : list pyval) : result A :=
  match positional with
  | [a; b; c] => body a b c
  | _ => Raise TypeError
  end.

Definition def4 {A} (body : pyval -> pyval -> pyval -> pyval -> result A)
    (positional : list pyval) : result A :=
  match positional with
  | [a; b; c; d] => body a b c d
  | _ => Raise TypeError
  end.

(** [def f(self, **kwargs)] *)
Definition def_kwargs {A} (body : dict -> result A)
    (positional : list pyval) (kwargs : dict) : result A :=
  match positional with
  | [] => body kwargs
  | _ => Raise TypeError
  end.

(** [def f(self, a, **kwargs)] *)
Definition def1_kwargs {A} (body : pyval -> dict -> result A)
    (positional : list pyval) (kwargs : dict) : result A :=
  match positional with
  | [a] => body a kwargs
  | _ => Raise TypeError
  end.

(** ** The world: dictionary objects and the remote server *)

Abbreviation loc := nat.

Record call : Type := Call { call_method : string; call_positional : list pyval }.

Record world : Type := World {
  heap : list dict;
  remote : string -> list pyval -> result pyval;
  calls : list call
}.

Definition M (A : Type) : Type := world -> result A * world.

#[global] Instance M_ret : MRet M := fun A a w => (Return a, w).
#[global] Instance M_bind : MBind M := fun A B k m w =>
  match m w with
  | (Return a, w') => k a w'
  | (Raise e, w') => (Raise e, w')
  end.

Definition lift {A} (r : result A) : M A := fun w => (r, w).

Definition alloc (d : dict) : M loc := fun w =>
  (Return (length (heap w)),
   {| heap := heap w ++ [d]; remote := remote w; calls := calls w |}).

Definition load (l : loc) : M dict := fun w =>
  match heap w !! l with
  | Some d => (Return d, w)
  | None => (Raise DanglingReference, w)
  end.

Definition store (l : loc) (d : dict) : M unit := fun w =>
  (Return tt, {| heap := <[l := d]> (heap w); remote := remote w; calls := calls w |}).

(** [getattr(proxy, method)] applied to the positional arguments: one
    round trip to the server. *)
Definition invoke (method : string) (positional : list pyval) : M pyval := fun w =>
  (remote w method positional,
   {| heap := heap w; remote := remote w; calls := calls w ++ [Call method positional] |}).

(** [copy.copy(d)] of a dictionary: a new object with the same bindings. *)
Definition copy_copy (d : loc) : M loc :=
  bindings ← load d; alloc bindings.

(** [f(x, **d)]: the callee's [kwargs] is a new dictionary with the
    bindings of [d].  [f] gives the bindings of the dictionary the
    callee returns as a function of those it receives; they are written to
    the callee's own dictionary, which is the value of the call. *)
Definition call_with_kwargs (f : list pyval -> dict -> result dict)
    (positional : list pyval) (d : loc) : M loc :=
  bindings ← load d;
  kwargs ← alloc bindings;
  returned ← lift (f positional bindings);
  _ ← store kwargs returned;
  mret kwargs.

(** ** core/definitions.py, core/arguments.py: the interfaces *)

Record APIArgumentValidator : Type := { validate : pyval -> result unit }.

Record APIArgument : Type := {
  name : string;
  required : bool;
  validator_class : APIArgumentValidator
}.

Record API : Type := {
  method : string;
  arguments : list APIArgument;
  authenticate : bool;
  transform_arguments : list pyval -> dict -> result dict;
  validate_response : list pyval -> result unit;
  transform_response : list pyval -> result pyval
}.

(** ** client.py *)

Record EjabberdAPIClient : Type := {
  host : pyval;
  port : pyval;
  username : pyval;
  password : pyval;
  xmpp_domain : pyval;
  muc_service : pyval;
  protocol : pyval;
  verbose : pyval
}.

(** The [auth] property. *)
Definition auth (self : EjabberdAPIClient) : dict :=
  <["user" := username self]>
    (<["server" := xmpp_domain self]> (<["password" := password self]> ∅)).

(** The [context] property. *)
Definition context (self : EjabberdAPIClient) : dict :=
  <["host" := xmpp_domain self]> (<["service" := muc_service self]> ∅).

(** ['Missing required argument "%s"' % argument_name] *)
Definition missing_argument_message (argument_name : string) : string :=
  "Missing required argument " +:+ String "034"%char argument_name
    +:+ String "034"%char EmptyString.

(** The loop of [_call_api] over [api.arguments]: presence, then value, one
    descriptor after the other.  [str(argument_descriptor.name)] is the
    name itself (names are ASCII). *)
Fixpoint validate_arguments (descriptors : list APIArgument) (arguments : dict)
    : result unit :=
  match descriptors with
  | [] => Return tt
  | argument_descriptor :: rest =>
      let argument_name := name argument_descriptor in
      if required argument_descriptor
         && negb (bool_decide (is_Some (arguments !! argument_name)))
      then Raise (IllegalArgumentError (missing_argument_message argument_name))
      else
        _ ← validate (validator_class argument_descriptor)
              (default PNone (arguments !! argument_name));
        validate_arguments rest arguments
  end.

(** [_call_api(self, api_class, **kwargs)], with [api = api_class()] and
    [kwargs] the keyword dictionary built by the call. *)
Definition _call_api (self : EjabberdAPIClient) (api : API) (kwargs : loc)
    : M pyval :=
  (* Copy arguments *)
  copied ← copy_copy kwargs;
  (* Transform arguments *)
  transformed ←
    call_with_kwargs (transform_arguments api) [PDict (context self)] copied;
  args ← load transformed;
  (* Validate arguments *)
  _ ← lift (validate_arguments (arguments api) args);
  (* Retrieve method, perform call *)
  response ←
    (if negb (authenticate api)
     then invoke (method api) [PDict args]
     else invoke (method api) [PDict (auth self); PDict args]);
  (* Validate response *)
  _ ← lift (validate_response api
              [PDict (context self); PObject (method api); PDict args; response]);
  (* Transform response *)
  lift (transform_response api
          [PDict (context self); PObject (method api); PDict args; response]).

(** ** definitions.py

    The classes derive from [API] (core/definitions.py) and build their
    argument descriptors with [StringArgument] (core/arguments.py);
    [CheckPasswordHash] hashes with [format_password_hash_sha] (utils.py).
    None of the three is among the sources: the classes are given for any
    base class, any descriptor constructor and any hash function. *)

Section definitions.
Variable base : API.
Variable StringArgument : string -> APIArgument.
Variable format_password_hash_sha : pyval -> result pyval.

(** [return response.get('res') == 0] *)
Definition res_is_zero (response : pyval) : result pyval :=
  res ← py_get response "res" PNone;
  Return (PBool (eq_int res 0)).

Definition Echo : API := {|
  method := "echothisnew";
  arguments := [StringArgument "sentence"];
  authenticate := authenticate base;
  transform_arguments := transform_arguments base;
  validate_response := validate_response base;
  transform_response :=
    def3 (fun api arguments response => py_get response "repeated" PNone)
|}.

Definition RegisteredUsers : API := {|
  method := "registered_users";
  arguments := [StringArgument "host"];
  authenticate := authenticate base;
  transform_arguments := transform_arguments base;
  validate_response := validate_response base;
  transform_response :=
    def3 (fun api arguments response => py_get response "users" (PList []))
|}.

Definition Register : API := {|
  method := "register";
  arguments := [StringArgument "user"; StringArgument "host"; StringArgument "password"];
  authenticate := authenticate base;
  transform_arguments := transform_arguments base;
  validate_response :=
    def3 (fun api arguments response =>
      res ← py_get response "res" PNone;
      if eq_int res 1
      then username ← py_get arguments "user" PNone;
           Raise (UserAlreadyRegisteredError username)
      else Return tt);
  transform_response := def3 (fun api arguments response => res_is_zero response)
|}.

Definition UnRegister : API := {|
  method := "unregister";
  arguments := [StringArgument "user"; StringArgument "host"];
  authenticate := authenticate base;
  transform_arguments := transform_arguments base;
  validate_response := validate_response base;
  transform_response := def3 (fun api arguments response => res_is_zero response)
|}.

Definition ChangePassword : API := {|
  method := "change_password";
  arguments := [StringArgument "user"; StringArgument "host"; StringArgument "newpass"];
  authenticate := authenticate base;
  transform_arguments := transform_arguments base;
  validate_response := validate_response base;
  transform_response := def3 (fun api arguments response => res_is_zero response)
|}.

Definition CheckPasswordHash : API := {|
  method := "check_password_hash";
  arguments := [StringArgument "user"; StringArgument "host";
                StringArgument "passwordhash"; StringArgument "hashmethod"];
  authenticate := authenticate base;
  transform_arguments :=
    def_kwargs (fun kwargs =>
      match kwargs !! "password" with
      | None => Raise (KeyError "password")
      | Some plain =>
          let kwargs := delete "password" kwargs in
          passwordhash ← format_password_hash_sha plain;
          Return (<["hashmethod" := PStr "sha"]>
                    (<["passwordhash" := passwordhash]> kwargs))
      end);
  validate_response := validate_response base;
  transform_response := def3 (fun api arguments response => res_is_zero response)
|}.

Definition SetNickname : API := {|
  method := "set_nickname";
  arguments := [StringArgument "user"; StringArgument "host"; StringArgument "nickname"];
  authenticate := authenticate base;
  transform_arguments := transform_arguments base;
  validate_response := validate_response base;
  transform_response := def3 (fun api arguments response => res_is_zero response)
|}.

Definition MucOnlineRooms : API := {|
  method := "muc_online_rooms";
  arguments := [StringArgument "host"];
  authenticate := authenticate base;
  transform_arguments := transform_arguments base;
  validate_response := validate_response base;
  transform_response :=
    def3 (fun api arguments response =>
      rooms ← py_get response "rooms" (PDict ∅);
      result_dicts ← py_iter rooms;
      names ← mapR (fun result_dict => py_get result_dict "room" PNone) result_dicts;
      Return (PList names))
|}.

Definition CreateRoom : API := {|
  method := "create_room";
  arguments := [StringArgument "name"; StringArgument "service"; StringArgument "host"];
  authenticate := authenticate base;
  transform_arguments := transform_arguments base;
  validate_response := validate_response base;
  transform_response := def3 (fun api arguments response => res_is_zero response)
|}.

Definition DestroyRoom : API := {|
  method := "destroy_room";
  arguments := [StringArgument "name"; StringArgument "service"; StringArgument "host"];
  authenticate := authenticate base;
  transform_arguments := transform_arguments base;
  validate_response := validate_response base;
  transform_response := def3 (fun api arguments response => res_is_zero response)
|}.

(** The loop of [GetRoomOptions.transform_response]; in
    [result[name_dict['name']] = value_dict['value']] the right-hand side
    is evaluated first. *)
Fixpoint fold_options (option_dicts : list pyval) (result_ : dict) : result dict :=
  match option_dicts with
  | [] => Return result_
  | option_dict :: rest =>
      option ← py_get option_dict "option" PNone;
      match option with
      | PNone => fold_options rest result_
      | _ =>
          pair ← py_unpack2 option;
          value ← py_getitem pair.2 "value";
          key ← py_getitem pair.1 "name";
          result_ ← py_setitem result_ key value;
          fold_options rest result_
      end
  end.

Definition GetRoomOptions : API := {|
  method := "get_room_options";
  arguments := [StringArgument "name"; StringArgument "service"];
  authenticate := authenticate base;
  transform_arguments := transform_arguments base;
  validate_response := validate_response base;
  transform_response :=
    def3 (fun api arguments response =>
      options ← py_get response "options" (PList []);
      option_dicts ← py_iter options;
      result_ ← fold_options option_dicts ∅;
      Return (PDict result_))
|}.

(** *** The public methods of the client (client.py) *)

Definition echo (self : EjabberdAPIClient) (sentence : pyval) : M pyval :=
  kwargs ← alloc (<["sentence" := sentence]> ∅);
  _call_api self Echo kwargs.

Definition registered_users (self : EjabberdAPIClient) : M pyval :=
  kwargs ← alloc ∅;
  _call_api self RegisteredUsers kwargs.

Definition register (self : EjabberdAPIClient) (user password : pyval) : M pyval :=
  kwargs ← alloc (<["user" := user]> (<["password" := password]> ∅));
  _call_api self Register kwargs.

Definition unregister (self : EjabberdAPIClient) (user : pyval) : M pyval :=
  kwargs ← alloc (<["user" := user]> ∅);
  _call_api self UnRegister kwargs.

Definition change_password (self : EjabberdAPIClient) (user newpass : pyval) : M pyval :=
  kwargs ← alloc (<["user" := user]> (<["newpass" := newpass]> ∅));
  _call_api self ChangePassword kwargs.

Definition check_password_hash (self : EjabberdAPIClient) (user password : pyval)
    : M pyval :=
  kwargs ← alloc (<["user" := user]> (<["password" := password]> ∅));
  _call_api self CheckPasswordHash kwargs.

Definition set_nickname (self : EjabberdAPIClient) (user nickname : pyval) : M pyval :=
  kwargs ← alloc (<["user" := user]> (<["nickname" := nickname]> ∅));
  _call_api self SetNickname kwargs.

End definitions.

(** ** The parts of the library that are not among the sources *)

Module core.

(** Modelled from the spec: the string validator of the core package is
    missing.  Spec 4.3: it "fails unless value is textual (or None and
    argument optional)", and fails "with ValidationError". *)
Definition StringValidator (optional : bool) : APIArgumentValidator := {|
  validate := fun value =>
    match value with
    | PStr _ => Return tt
    | PNone => if optional then Return tt else Raise (ValidationError value)
    | _ => Raise (ValidationError value)
    end
|}.

(** Modelled from the spec: the descriptor constructor [StringArgument] of
    core/arguments.py is missing.  Spec 3: a descriptor has a name, a
    required flag and a validator; spec 4.2 and 8 list the arguments of
    the enumerated operations as the ones whose absence is an error. *)
Definition StringArgument (argument_name : string) : APIArgument := {|
  name := argument_name;
  required := true;
  validator_class := StringValidator false
|}.

(** Modelled from the spec: the base class [API] of core/definitions.py is
    missing.  Spec 4.1: [transformArguments(context, args)] is the identity
    by default, [validateResponse(context, descriptor, args, reply)] does
    nothing and [transformResponse(context, descriptor, args, reply)] is
    the identity; spec 4.2: no enumerated operation authenticates.  The
    method name and the argument list are abstract in the base class.
    (Spec 9 notes that the default [transform_arguments] of the source may
    lack the context parameter; the statements below that are made for
    every base class cover that case too.) *)
Definition API_defaults : API := {|
  method := "";
  arguments := [];
  authenticate := false;
  transform_arguments := def1_kwargs (fun context kwargs => Return kwargs);
  validate_response := def4 (fun context api arguments response => Return tt);
  transform_response := def4 (fun context api arguments response => Return response)
|}.

End core.

(** ** Worlds and data used in the examples *)

Definition example_client : EjabberdAPIClient := {|
  host := PStr "xmpp.example.com";
  port := PInt 4560;
  username := PStr "admin";
  password := PStr "admin-secret";
  xmpp_domain := PStr "example.com";
  muc_service := PStr "conference";
  protocol := PStr "https";
  verbose := PBool false
|}.

(** A world whose only dictionary object is the keyword dictionary of the
    call, and whose server answers every request with [reply]. *)
Definition replying (reply : pyval) (kwargs : dict) : world :=
  {| heap := [kwargs]; remote := fun _ _ => Return reply; calls := [] |}.

(** The descriptors of definitions.py over the modelled core package. *)
Definition Register_ : API := Register core.API_defaults core.StringArgument.
Definition RegisteredUsers_ : API := RegisteredUsers core.API_defaults core.StringArgument.
Definition UnRegister_ : API := UnRegister core.API_defaults core.StringArgument.
Definition GetRoomOptions_ : API := GetRoomOptions core.API_defaults core.StringArgument.
Definition Echo_ : API := Echo core.API_defaults core.StringArgument.

Definition full_register_kwargs : dict :=
  <["user" := PStr "alice"]>
    (<["host" := PStr "example.com"]> (<["password" := PStr "secret"]> ∅)).

(** What [register(user, password)] passes to [_call_api]. *)
Definition register_kwargs (user password_ : pyval) : dict :=
  <["user" := user]> (<["password" := password_]> ∅).

(** [user] is not a string, [host] is absent. *)
Definition kwargs_bad_user : dict := register_kwargs (PInt 5) (PStr "secret").

(** [user] is absent, [host] is not a string. *)
Definition kwargs_no_user : dict :=
  <["host" := PInt 5]> (<["password" := PStr "secret"]> ∅).

(** All three arguments are present, [host] is not a string. *)
Definition kwargs_bad_host : dict :=
  <["user" := PStr "alice"]>
    (<["host" := PInt 5]> (<["password" := PStr "secret"]> ∅)).

Definition echo_kwargs : dict := <["sentence" := PStr "hello"]> ∅.

(** A descriptor with the calling convention of [_call_api] whose
    argument hook removes a key, as the body of
    [CheckPasswordHash.transform_arguments] does. *)
Definition drops_password : API := {|
  method := "check_password_hash";
  arguments := [];
  authenticate := false;
  transform_arguments :=
    def1_kwargs (fun context kwargs => Return (delete "password" kwargs));
  validate_response := def4 (fun context api arguments response => Return tt);
  transform_response := def4 (fun context api arguments response => Return response)
|}.

(** The reply of the specification's example for [get_room_options]. *)
Definition room_options_reply : pyval :=
  PDict {["options" :=
    PList [PDict {["option" :=
      PList [PDict {["name" := PStr "title"]}; PDict {["value" := PStr "Room A"]}]]}]]}.

Definition room_kwargs : dict :=
  <["name" := PStr "lobby"]> (<["service" := PStr "conference"]> ∅).

Definition unregister_kwargs : dict :=
  <["user" := PStr "alice"]> (<["host" := PStr "example.com"]> ∅).

Definition host_kwargs : dict := <["host" := PStr "example.com"]> ∅.

(** A well-formed entry of the "options" list of a reply. *)
Definition option_entry (nv : string * pyval) : pyval :=
  PDict {["option" := PList [PDict {["name" := PStr nv.1]}; PDict {["value" := nv.2]}]]}.

(** ** client.py: the constructor and the endpoint *)

(** [__init__]: [muc_service], [protocol] and [verbose] have defaults. *)
Definition new_client (host_ port_ username_ password_ xmpp_domain_ : pyval)
    (muc_service_ protocol_ verbose_ : option pyval) : EjabberdAPIClient := {|
  host := host_;
  port := port_;
  username := username_;
  password := password_;
  xmpp_domain := xmpp_domain_;
  muc_service := default (PStr "conference") muc_service_;
  protocol := default (PStr "https") protocol_;
  verbose := default (PBool false) verbose_
|}.

(** What ["%s" % v] puts in place of [%s]: the text itself, the decimal
    digits of an integer, the name of a constant.  The rendering of lists,
    dictionaries and other objects is not modelled. *)
Definition py_str (v : pyval) : option string :=
  match v with
  | PNone => Some "None"
  | PBool true => Some "True"
  | PBool false => Some "False"
  | PInt n => Some (pretty n)
  | PStr s => Some s
  | _ => None
  end.

(** The [service_url] property:
    ["%s://%s:%s/" % (self.protocol, self.host, self.port)]. *)
Definition service_url (self : EjabberdAPIClient) : option string :=
  p ← py_str (protocol self);
  h ← py_str (host self);
  n ← py_str (port self);
  Some (p +:+ "://" +:+ h +:+ ":" +:+ n +:+ "/").

(** The character [c] occurs in [s]. *)
Fixpoint occurs (c : ascii) (s : string) : bool :=
  match s with
  | EmptyString => false
  | String c' rest => bool_decide (c = c') || occurs c rest
  end.

(** A client whose protocol [p] and host [h] are texts without a colon
    and whose port [n] is an integer. *)
Definition plain_endpoint (self : EjabberdAPIClient) (p h : string) (n : Z) : Prop :=
  protocol self = PStr p /\ host self = PStr h /\ port self = PInt n
  /\ occurs ":" p = false /\ occurs ":" h = false.

(** ** More data for the examples *)

(** A world whose server fails every request with [e]. *)
Definition failing (e : exn) (kwargs : dict) : world :=
  {| heap := [kwargs]; remote := fun _ _ => Raise e; calls := [] |}.

(** A base class that authenticates, otherwise as the modelled one. *)
Definition authenticated_base : API := {|
  method := "";
  arguments := [];
  authenticate := true;
  transform_arguments := transform_arguments core.API_defaults;
  validate_response := validate_response core.API_defaults;
  transform_response := transform_response core.API_defaults
|}.

(** A stand-in for the hash function of utils.py. *)
Definition example_hash (plain : pyval) : result pyval :=
  match plain with
  | PStr _ => Return (PStr "e5e9fa1ba31ecd1ae84f75caaa474f3a663f05f4")
  | _ => Raise TypeError
  end.

(** The response hooks of the eleven classes of definitions.py. *)
Definition response_hooks (base : API) (SA : string -> APIArgument)
    (sha : pyval -> result pyval) : list (list pyval -> result pyval) :=
  transform_response <$>
    [Echo base SA; RegisteredUsers base SA; Register base SA; UnRegister base SA;
     ChangePassword base SA; CheckPasswordHash base SA sha; SetNickname base SA;
     MucOnlineRooms base SA; CreateRoom base SA; DestroyRoom base SA;
     GetRoomOptions base SA].


(** The reply of the specification's example for [muc_online_rooms]. *)
Definition rooms_reply : dict :=
  {["rooms" := PList [PDict {["room" := PStr "lobby"]}; PDict {["room" := PStr "vip"]}]]}.

(** An optional string argument. *)
Definition optional_nickname : APIArgument := {|
  name := "nickname";
  required := false;
  validator_class := core.StringValidator true
|}.

Definition Echo_authenticated : API := Echo authenticated_base core.StringArgument.

(** An item of the "options" list that the loop of [GetRoomOptions]
    passes over: a dictionary without "option", or with [None] there. *)
Definition passed_over (option_dict : pyval) : Prop :=
  exists d, option_dict = PDict d
    /\ (d !! "option" = None \/ d !! "option" = Some PNone).

(** The requirement of one descriptor on the transformed arguments. *)
Definition descriptor_passes (arguments : dict) (a : APIArgument) : Prop :=
  (required a = true -> is_Some (arguments !! name a))
  /\ validate (validator_class a) (default PNone (arguments !! name a)) = Return tt.

(** * Properties *)

(** ** The shape of every run of [_call_api] *)

Definition grow (w : world) (ds : list dict) : world :=
  {| heap := heap w ++ ds; remote := remote w; calls := calls w |}.

Definition called (w : world) (c : call) : world :=
  {| heap := heap w; remote := remote w; calls := calls w ++ [c] |}.

(** The run [r], started in [w], ends at the presence check of "host". *)
Definition stops_at_host (w : world) (r : result pyval * world) : Prop :=
  r.1 = Raise (IllegalArgumentError (missing_argument_message "host"))
  /\ calls r.2 = calls w.

(** What [_call_api] passes to the proxy method. *)
Definition positional_of (self : EjabberdAPIClient) (api : API) (args : dict)
    : list pyval :=
  if negb (authenticate api) then [PDict args] else [PDict (auth self); PDict args].

Definition hook_positional (self : EjabberdAPIClient) (api : API) (args : dict)
    (response : pyval) : list pyval :=
  [PDict (context self); PObject (method api); PDict args; response].

Lemma _call_api_dangling self api kwargs w :
  heap w !! kwargs = None ->
  _call_api self api kwargs w = (Raise DanglingReference, w).
Proof.
  intros H. unfold _call_api, copy_copy, mbind, M_bind, load. by rewrite H.
Qed.

Lemma insert_last (h : list dict) (d d' : dict) :
  <[length h := d']> (h ++ [d]) = h ++ [d'].
Proof.
  replace (length h) with (length h + 0)%nat by lia.
  by rewrite insert_app_r.
Qed.

Lemma _call_api_run self api kwargs w d :
  heap w !! kwargs = Some d ->
  _call_api self api kwargs w =
    match transform_arguments api [PDict (context self)] d with
    | Raise e => (Raise e, grow w [d; d])
    | Return args =>
        match validate_arguments (arguments api) args with
        | Raise e => (Raise e, grow w [d; args])
        | Return _ =>
            let c := Call (method api) (positional_of self api args) in
            match remote w (method api) (positional_of self api args) with
            | Raise e => (Raise e, called (grow w [d; args]) c)
            | Return response =>
                (_ ← validate_response api (hook_positional self api args response);
                 transform_response api (hook_positional self api args response),
                 called (grow w [d; args]) c)
            end
        end
    end.
Proof.
  intros H.
  unfold _call_api, copy_copy, call_with_kwargs, mbind, M_bind, load, alloc,
    store, lift, mret, M_ret, grow, called, positional_of, hook_positional.
  cbn [heap remote calls]. rewrite H. cbn [heap remote calls].
  assert (Hl : (heap w ++ [d]) !! length (heap w) = Some d).
  { rewrite lookup_app_r by lia. by rewrite Nat.sub_diag. }
  rewrite Hl. cbn [heap remote calls].
  destruct (transform_arguments api [PDict (context self)] d) as [args|e];
    cbn [heap remote calls].
  - rewrite insert_last, <- (assoc_L (++)). cbn [app].
    assert (Hl' : (heap w ++ [d; args]) !! length (heap w ++ [d]) = Some args).
    { rewrite (lookup_app_r (heap w)) by (rewrite length_app; cbn; lia).
      rewrite length_app. cbn.
      by replace (length (heap w) + 1 - length (heap w))%nat with 1%nat by lia. }
    rewrite Hl'.
    destruct (validate_arguments (arguments api) args) as [[]|e]; [|done].
    unfold invoke. destruct (negb (authenticate api)); cbn [heap remote calls].
    + destruct (remote w (method api) [PDict args]) as [response|e]; [|done].
      by destruct (validate_response api _).
    + destruct (remote w (method api) [PDict (auth self); PDict args])
        as [response|e]; [|done].
      by destruct (validate_response api _).
  - by rewrite <- (assoc_L (++)).
Qed.

(** The transport is reached only after the hook and the loop succeeded. *)
Lemma _call_api_stops_before_transport self api kwargs w d :
  heap w !! kwargs = Some d ->
  (forall args, transform_arguments api [PDict (context self)] d = Return args ->
     exists e, validate_arguments (arguments api) args = Raise e) ->
  (exists e, (_call_api self api kwargs w).1 = Raise e)
  /\ calls (_call_api self api kwargs w).2 = calls w.
Proof.
  intros H Hfail. rewrite (_call_api_run _ _ _ _ _ H).
  destruct (transform_arguments api _ d) as [args|e]; [|by eauto].
  destruct (Hfail args eq_refl) as [e ->]. by eauto.
Qed.

(** ** The validation loop *)

Lemma validate_arguments_app before rest args :
  validate_arguments (before ++ rest) args =
    (_ ← validate_arguments before args; validate_arguments rest args).
Proof.
  induction before as [|a before IH]; [done|].
  cbn [app validate_arguments].
  destruct (required a && _); [done|].
  destruct (validate (validator_class a) _) as [[]|e]; [|done].
  exact IH.
Qed.

Lemma validate_arguments_missing a rest args :
  required a = true -> args !! name a = None ->
  validate_arguments (a :: rest) args =
    Raise (IllegalArgumentError (missing_argument_message (name a))).
Proof.
  intros Hreq Habs. cbn [validate_arguments]. rewrite Hreq, Habs.
  by rewrite bool_decide_eq_false_2 by (by intros [? ?]).
Qed.

Lemma validate_arguments_invalid a rest args e :
  required a = false \/ is_Some (args !! name a) ->
  validate (validator_class a) (default PNone (args !! name a)) = Raise e ->
  validate_arguments (a :: rest) args = Raise e.
Proof.
  intros Hrun He. cbn [validate_arguments].
  replace (required a && negb (bool_decide (is_Some (args !! name a))))
    with false.
  - by rewrite He.
  - destruct Hrun as [-> | Hin]; [done|].
    rewrite bool_decide_eq_true_2 by done. by rewrite andb_false_r.
Qed.

(** The first failure decides: whatever fails inside the loop, the loop
    raises. *)
Lemma validate_arguments_raises before a after args :
  (exists e, validate_arguments (a :: after) args = Raise e) ->
  exists e, validate_arguments (before ++ a :: after) args = Raise e.
Proof.
  intros [e He]. rewrite validate_arguments_app.
  destruct (validate_arguments before args) as [[]|e']; [|by eauto].
  cbn. by eauto.
Qed.

(** C1, as amended: when an argument that is required is absent from the
    transformed arguments, the call raises and the proxy is not invoked;
    the error is [IllegalArgumentError] for that argument whenever the
    descriptors listed before it pass their own checks (otherwise the
    first of them that fails decides the error). *)
Theorem missing_required_argument self api kwargs w d args before a after :
  heap w !! kwargs = Some d ->
  transform_arguments api [PDict (context self)] d = Return args ->
  arguments api = before ++ a :: after ->
  required a = true ->
  args !! name a = None ->
  calls (_call_api self api kwargs w).2 = calls w
  /\ (exists e, (_call_api self api kwargs w).1 = Raise e)
  /\ (validate_arguments before args = Return tt ->
      (_call_api self api kwargs w).1 =
        Raise (IllegalArgumentError (missing_argument_message (name a)))).
Proof.
  intros H Ht Hargs Hreq Habs.
  pose proof (validate_arguments_missing a after args Hreq Habs) as Hmiss.
  destruct (_call_api_stops_before_transport self api kwargs w d H) as [He Hc].
  { intros args' Ht'. rewrite Ht in Ht'. injection Ht' as <-.
    rewrite Hargs. apply validate_arguments_raises. by eauto. }
  split; [done|]. split; [done|].
  intros Hbefore. rewrite (_call_api_run _ _ _ _ _ H), Ht, Hargs.
  rewrite validate_arguments_app, Hbefore. unfold mbind, result_bind.
  by rewrite Hmiss.
Qed.

(** C2, as amended: when the validator of an argument fails on the value
    bound to it (on [None] for an optional argument that is absent), the
    call raises and the proxy is not invoked, whatever descriptors follow;
    the error is the validator's whenever the descriptors listed before it
    pass their own checks (otherwise the first of them that fails decides
    the error). *)
Theorem failing_validator self api kwargs w d args before a after e :
  heap w !! kwargs = Some d ->
  transform_arguments api [PDict (context self)] d = Return args ->
  arguments api = before ++ a :: after ->
  required a = false \/ is_Some (args !! name a) ->
  validate (validator_class a) (default PNone (args !! name a)) = Raise e ->
  calls (_call_api self api kwargs w).2 = calls w
  /\ (exists e', (_call_api self api kwargs w).1 = Raise e')
  /\ (validate_arguments before args = Return tt ->
      (_call_api self api kwargs w).1 = Raise e).
Proof.
  intros H Ht Hargs Hrun Hfail.
  pose proof (validate_arguments_invalid a after args e Hrun Hfail) as Hinv.
  destruct (_call_api_stops_before_transport self api kwargs w d H) as [He Hc].
  { intros args' Ht'. rewrite Ht in Ht'. injection Ht' as <-.
    rewrite Hargs. apply validate_arguments_raises. by eauto. }
  split; [done|]. split; [done|].
  intros Hbefore. rewrite (_call_api_run _ _ _ _ _ H), Ht, Hargs.
  rewrite validate_arguments_app, Hbefore. unfold mbind, result_bind.
  by rewrite Hinv.
Qed.

(** C1 fails as stated: [host] is required by [Register] and absent, yet
    the call raises the [ValidationError] of [user], which is checked
    first. *)
Lemma missing_required_argument_counterexample :
  let w := replying PNone kwargs_bad_user in
  transform_arguments Register_ [PDict (context example_client)] kwargs_bad_user
    = Return kwargs_bad_user
  /\ arguments Register_ =
       [core.StringArgument "user"; core.StringArgument "host";
        core.StringArgument "password"]
  /\ required (core.StringArgument "host") = true
  /\ kwargs_bad_user !! name (core.StringArgument "host") = None
  /\ (_call_api example_client Register_ 0%nat w).1 = Raise (ValidationError (PInt 5))
  /\ ~ (exists n, (_call_api example_client Register_ 0%nat w).1
                    = Raise (IllegalArgumentError n)).
Proof.
  cbv zeta. repeat split; try (vm_compute; reflexivity).
  intros [n Hn]. vm_compute in Hn. discriminate Hn.
Qed.

Lemma missing_required_argument_witness :
  let kw := register_kwargs (PStr "alice") (PStr "secret") in
  let w := replying PNone kw in
  (heap w !! 0%nat = Some kw
   /\ transform_arguments Register_ [PDict (context example_client)] kw = Return kw
   /\ arguments Register_ =
        [core.StringArgument "user"] ++
        core.StringArgument "host" :: [core.StringArgument "password"]
   /\ required (core.StringArgument "host") = true
   /\ kw !! name (core.StringArgument "host") = None
   /\ validate_arguments [core.StringArgument "user"] kw = Return tt)
  /\ calls (_call_api example_client Register_ 0%nat w).2 = calls w
  /\ (_call_api example_client Register_ 0%nat w).1
      = Raise (IllegalArgumentError (missing_argument_message "host")).
Proof.
  cbv zeta.
  pose proof (missing_required_argument example_client Register_ 0%nat
    (replying PNone (register_kwargs (PStr "alice") (PStr "secret")))
    (register_kwargs (PStr "alice") (PStr "secret"))
    (register_kwargs (PStr "alice") (PStr "secret"))
    [core.StringArgument "user"] (core.StringArgument "host")
    [core.StringArgument "password"]
    eq_refl eq_refl eq_refl eq_refl eq_refl) as [Hc [_ Hi]].
  split.
  - repeat split; vm_compute; reflexivity.
  - split; [exact Hc|]. apply Hi. vm_compute. reflexivity.
Defined.

(** C2 fails as stated: the validator of [host] fails on the value 5, yet
    the call raises the [IllegalArgumentError] of [user], which is
    checked first. *)
Lemma failing_validator_counterexample :
  let w := replying PNone kwargs_no_user in
  transform_arguments Register_ [PDict (context example_client)] kwargs_no_user
    = Return kwargs_no_user
  /\ arguments Register_ =
       [core.StringArgument "user"; core.StringArgument "host";
        core.StringArgument "password"]
  /\ kwargs_no_user !! name (core.StringArgument "host") = Some (PInt 5)
  /\ validate (validator_class (core.StringArgument "host")) (PInt 5)
       = Raise (ValidationError (PInt 5))
  /\ (_call_api example_client Register_ 0%nat w).1
       = Raise (IllegalArgumentError (missing_argument_message "user"))
  /\ ~ (exists v, (_call_api example_client Register_ 0%nat w).1
                    = Raise (ValidationError v)).
Proof.
  cbv zeta. repeat split; try (vm_compute; reflexivity).
  intros [v Hv]. vm_compute in Hv. discriminate Hv.
Qed.

Lemma failing_validator_witness :
  let w := replying PNone kwargs_bad_host in
  (heap w !! 0%nat = Some kwargs_bad_host
   /\ transform_arguments Register_ [PDict (context example_client)] kwargs_bad_host
       = Return kwargs_bad_host
   /\ arguments Register_ =
        [core.StringArgument "user"] ++
        core.StringArgument "host" :: [core.StringArgument "password"]
   /\ kwargs_bad_host !! name (core.StringArgument "host") = Some (PInt 5)
   /\ validate (validator_class (core.StringArgument "host")) (PInt 5)
       = Raise (ValidationError (PInt 5))
   /\ validate_arguments [core.StringArgument "user"] kwargs_bad_host = Return tt)
  /\ calls (_call_api example_client Register_ 0%nat w).2 = calls w
  /\ (_call_api example_client Register_ 0%nat w).1
      = Raise (ValidationError (PInt 5)).
Proof.
  cbv zeta.
  pose proof (failing_validator example_client Register_ 0%nat
    (replying PNone kwargs_bad_host) kwargs_bad_host kwargs_bad_host
    [core.StringArgument "user"] (core.StringArgument "host")
    [core.StringArgument "password"] (ValidationError (PInt 5))
    eq_refl eq_refl eq_refl (or_intror (ex_intro _ (PInt 5) eq_refl)) eq_refl)
    as [Hc [_ Hi]].
  split.
  - repeat split; vm_compute; reflexivity.
  - split; [exact Hc|]. apply Hi. vm_compute. reflexivity.
Defined.

(** C6: a descriptor that does not authenticate makes the proxy method
    receive one positional argument, the transformed arguments, and
    nothing else; no call is made when the hook or the validation loop
    raises. *)
Theorem unauthenticated_call_has_one_argument self api kwargs w d :
  authenticate api = false ->
  heap w !! kwargs = Some d ->
  calls (_call_api self api kwargs w).2 =
    match transform_arguments api [PDict (context self)] d with
    | Return args =>
        if is_Return (validate_arguments (arguments api) args)
        then calls w ++ [Call (method api) [PDict args]]
        else calls w
    | Raise _ => calls w
    end.
Proof.
  intros Hauth H. rewrite (_call_api_run _ _ _ _ _ H).
  unfold positional_of. rewrite Hauth. cbn [negb].
  destruct (transform_arguments api _ d) as [args|e]; [|done].
  destruct (validate_arguments (arguments api) args) as [[]|e]; [|done].
  cbn [is_Return]. by destruct (remote w (method api) [PDict args]).
Qed.

Lemma unauthenticated_call_has_one_argument_witness :
  let w := replying (PDict {["repeated" := PStr "hello"]}) echo_kwargs in
  (authenticate Echo_ = false /\ heap w !! 0%nat = Some echo_kwargs)
  /\ calls (_call_api example_client Echo_ 0%nat w).2
      = [Call "echothisnew" [PDict echo_kwargs]].
Proof.
  cbv zeta. split; [split; reflexivity|].
  rewrite (unauthenticated_call_has_one_argument example_client Echo_ 0%nat
             (replying (PDict {["repeated" := PStr "hello"]}) echo_kwargs)
             echo_kwargs eq_refl eq_refl).
  vm_compute. reflexivity.
Defined.

(** With the flag set, the credentials come first. *)
Lemma authenticated_call_has_two_arguments self api kwargs w d args :
  authenticate api = true ->
  heap w !! kwargs = Some d ->
  transform_arguments api [PDict (context self)] d = Return args ->
  validate_arguments (arguments api) args = Return tt ->
  calls (_call_api self api kwargs w).2 =
    calls w ++ [Call (method api) [PDict (auth self); PDict args]].
Proof.
  intros Hauth H Ht Hv. rewrite (_call_api_run _ _ _ _ _ H), Ht, Hv.
  unfold positional_of. rewrite Hauth. cbn [negb].
  by destruct (remote w (method api) _).
Qed.

(** ** The caller's dictionary *)

(** C9: every dictionary object that exists before the call, the caller's
    keyword dictionary among them, has the same bindings after the call,
    whatever the argument hook of the descriptor does to the dictionary
    it is given: [_call_api] works on a copy, and the hook on a
    dictionary of its own. *)
Theorem caller_mapping_unchanged self api kwargs w l d :
  heap w !! l = Some d ->
  heap (_call_api self api kwargs w).2 !! l = Some d.
Proof.
  intros Hl. destruct (heap w !! kwargs) as [d0|] eqn:H.
  - rewrite (_call_api_run _ _ _ _ _ H).
    destruct (transform_arguments api _ d0) as [args|e];
      [|by apply lookup_app_l_Some].
    destruct (validate_arguments (arguments api) args) as [[]|e];
      [|by apply lookup_app_l_Some].
    cbv zeta.
    destruct (remote w (method api) _); by apply lookup_app_l_Some.
  - by rewrite (_call_api_dangling _ _ _ _ H).
Qed.

Lemma caller_mapping_unchanged_witness :
  let kw := register_kwargs (PStr "alice") (PStr "secret") in
  let w := replying (PDict {["res" := PInt 0]}) kw in
  heap w !! 0%nat = Some kw
  /\ heap (_call_api example_client drops_password 0%nat w).2 !! 0%nat = Some kw.
Proof.
  cbv zeta. split; [reflexivity|].
  apply (caller_mapping_unchanged example_client drops_password 0%nat).
  reflexivity.
Defined.

(** The hook works on a dictionary of its own: after the call the caller's
    dictionary still binds "password", the transformed one does not, and
    the transformed one is what the proxy received. *)
Example drops_password_run :
  let kw := register_kwargs (PStr "alice") (PStr "secret") in
  let out := _call_api example_client drops_password 0%nat
               (replying (PDict {["res" := PInt 0]}) kw) in
  heap out.2 = [kw; kw; delete "password" kw]
  /\ calls out.2 = [Call "check_password_hash" [PDict (delete "password" kw)]].
Proof. cbv zeta. split; vm_compute; reflexivity. Qed.

(** ** The hooks of definitions.py under the calls of [_call_api]

    [_call_api] passes four positional arguments (context, api, arguments,
    response) to [validate_response] and [transform_response], and one
    (context) to [transform_arguments].  The hooks of definitions.py are
    declared with three parameters (api, arguments, response), and
    [CheckPasswordHash.transform_arguments] with none. *)

Lemma def3_four_positional {A} (body : pyval -> pyval -> pyval -> result A) a b c d :
  def3 body [a; b; c; d] = Raise TypeError.
Proof. reflexivity. Qed.

Lemma def_kwargs_one_positional {A} (body : dict -> result A) a kwargs :
  def_kwargs body [a] kwargs = Raise TypeError.
Proof. reflexivity. Qed.

(** A descriptor whose [transform_response] has three parameters never
    gives a result through [_call_api]. *)
Lemma dispatch_never_returns self api kwargs w body :
  transform_response api = def3 body ->
  is_Return (_call_api self api kwargs w).1 = false.
Proof.
  intros Hb. destruct (heap w !! kwargs) as [d|] eqn:H.
  - rewrite (_call_api_run _ _ _ _ _ H).
    destruct (transform_arguments api _ d) as [args|e]; [|done].
    destruct (validate_arguments (arguments api) args) as [[]|e]; [|done].
    cbv zeta. destruct (remote w (method api) _) as [response|e]; [|done].
    rewrite Hb. unfold hook_positional.
    by destruct (validate_response api _).
  - by rewrite (_call_api_dangling _ _ _ _ H).
Qed.

(** A descriptor whose [transform_arguments] takes keywords only stops at
    the hook: nothing is validated and nothing is sent. *)
Lemma dispatch_stops_at_hook self api kwargs w d body :
  transform_arguments api = def_kwargs body ->
  heap w !! kwargs = Some d ->
  _call_api self api kwargs w = (Raise TypeError, grow w [d; d]).
Proof.
  intros Hb H. by rewrite (_call_api_run _ _ _ _ _ H), Hb.
Qed.

(** The public methods build the keyword dictionary and dispatch. *)
Lemma alloc_then_call self api d w :
  (kwargs ← alloc d; _call_api self api kwargs) w =
  _call_api self api (length (heap w)) (grow w [d]).
Proof. reflexivity. Qed.

Lemma lookup_grow_fresh w d : heap (grow w [d]) !! length (heap w) = Some d.
Proof.
  unfold grow. cbn [heap]. rewrite lookup_app_r by lia.
  by rewrite Nat.sub_diag.
Qed.

(** *** What the hooks compute when called with the parameters they
    declare *)

Lemma Register_hooks_as_declared base SA api args reply :
  validate_response (Register base SA) [api; PDict args; PDict reply] =
    (if eq_int (default PNone (reply !! "res")) 1
     then Raise (UserAlreadyRegisteredError (default PNone (args !! "user")))
     else Return tt)
  /\ transform_response (Register base SA) [api; PDict args; PDict reply] =
       Return (PBool (eq_int (default PNone (reply !! "res")) 0)).
Proof.
  split; [|reflexivity]. cbn.
  by destruct (eq_int (default PNone (reply !! "res")) 1).
Qed.

Lemma res_is_zero_without_res reply :
  reply !! "res" = None -> res_is_zero (PDict reply) = Return (PBool false).
Proof. intros H. unfold res_is_zero. cbn. by rewrite H. Qed.

Lemma RegisteredUsers_hook_as_declared base SA api args reply :
  transform_response (RegisteredUsers base SA) [api; args; PDict reply] =
    Return (default (PList []) (reply !! "users")).
Proof. reflexivity. Qed.

Lemma fold_options_entries (entries : list (string * pyval)) (acc : dict) :
  fold_options (option_entry <$> entries) acc =
    Return (foldl (fun m nv => <[nv.1 := nv.2]> m) acc entries).
Proof.
  revert acc. induction entries as [|[n v] entries IH]; intros acc; [done|].
  cbn [fmap list_fmap foldl]. rewrite <- (IH (<[n := v]> acc)). reflexivity.
Qed.

Lemma GetRoomOptions_hook_as_declared base SA api args entries :
  transform_response (GetRoomOptions base SA)
    [api; args; PDict {["options" := PList (option_entry <$> entries)]}] =
    Return (PDict (foldl (fun m nv => <[nv.1 := nv.2]> m) ∅ entries)).
Proof.
  cbn. rewrite lookup_singleton_eq. cbn.
  by rewrite fold_options_entries.
Qed.

Example GetRoomOptions_hook_title :
  transform_response GetRoomOptions_ [PObject "api"; PDict room_kwargs; room_options_reply]
  = Return (PDict {["title" := PStr "Room A"]}).
Proof. vm_compute. reflexivity. Qed.

Lemma CheckPasswordHash_hook_as_declared base SA sha kwargs plain hashed :
  kwargs !! "password" = Some plain ->
  sha plain = Return hashed ->
  exists args,
    transform_arguments (CheckPasswordHash base SA sha) [] kwargs = Return args
    /\ args !! "passwordhash" = Some hashed
    /\ args !! "hashmethod" = Some (PStr "sha")
    /\ args !! "password" = None.
Proof.
  intros Hp Hs. eexists. split.
  - cbn. rewrite Hp. cbn. rewrite Hs. reflexivity.
  - split; [|split].
    + by rewrite lookup_insert_ne, lookup_insert_eq.
    + by rewrite lookup_insert_eq.
    + rewrite !lookup_insert_ne by done. by rewrite lookup_delete_eq.
Qed.

(** *** The operations through [_call_api] *)

(** C3: [Register] through [_call_api] never gives a result, whatever the
    base class, the arguments and the server; with complete arguments and
    a reply [{res: r}] the call raises [TypeError] after the server was
    called, for every [r] (1, 0 or anything else). *)
Theorem Register_dispatch_TypeError :
  (forall base SA self kwargs w,
     is_Return (_call_api self (Register base SA) kwargs w).1 = false)
  /\ (forall r,
        let out := _call_api example_client Register_ 0%nat
                     (replying (PDict {["res" := r]}) full_register_kwargs) in
        out.1 = Raise TypeError
        /\ calls out.2 = [Call "register" [PDict full_register_kwargs]]).
Proof.
  split.
  - intros. by eapply dispatch_never_returns.
  - intros r. cbv zeta. split; vm_compute; reflexivity.
Qed.

(** C4: [check_password_hash(user, password)] raises [TypeError] at the
    argument hook, for every password: no transformed arguments exist and
    the proxy is not invoked. *)
Theorem check_password_hash_TypeError base SA sha self user password_ w :
  (check_password_hash base SA sha self user password_ w).1 = Raise TypeError
  /\ calls (check_password_hash base SA sha self user password_ w).2 = calls w.
Proof.
  unfold check_password_hash. rewrite alloc_then_call.
  erewrite dispatch_stops_at_hook;
    [done | reflexivity | apply lookup_grow_fresh].
Qed.

(** C5: the public methods pass on what the caller gave them; the
    descriptors require "host", the base class hook leaves the arguments
    as they are, and the call stops at the presence check of "host"
    without reaching the server. *)
Theorem public_methods_miss_host self w u v :
  stops_at_host w (register core.API_defaults core.StringArgument self (PStr u) (PStr v) w)
  /\ stops_at_host w (unregister core.API_defaults core.StringArgument self (PStr u) w)
  /\ stops_at_host w
       (change_password core.API_defaults core.StringArgument self (PStr u) (PStr v) w)
  /\ stops_at_host w
       (set_nickname core.API_defaults core.StringArgument self (PStr u) (PStr v) w)
  /\ stops_at_host w (registered_users core.API_defaults core.StringArgument self w).
Proof.
  unfold stops_at_host, register, unregister, change_password, set_nickname,
    registered_users.
  rewrite !alloc_then_call.
  repeat split;
    by rewrite (_call_api_run _ _ _ _ _ (lookup_grow_fresh _ _)).
Qed.

(** If the hook of the base class takes keywords only, as the one of
    [CheckPasswordHash] does, the public methods stop one step earlier. *)
Lemma register_keyword_only_base base SA self user password_ w body :
  transform_arguments base = def_kwargs body ->
  (register base SA self user password_ w).1 = Raise TypeError
  /\ calls (register base SA self user password_ w).2 = calls w.
Proof.
  intros Hb. unfold register. rewrite alloc_then_call.
  erewrite dispatch_stops_at_hook;
    [done | exact Hb | apply lookup_grow_fresh].
Qed.

(** Once the server has replied to [register], the response hook is
    called with one argument too many. *)
Lemma Register_reply_TypeError base SA self kwargs w d args response :
  heap w !! kwargs = Some d ->
  transform_arguments base [PDict (context self)] d = Return args ->
  validate_arguments [SA "user"; SA "host"; SA "password"] args = Return tt ->
  remote w "register" (positional_of self (Register base SA) args) = Return response ->
  (_call_api self (Register base SA) kwargs w).1 = Raise TypeError.
Proof.
  intros H Ht Hv Hr. rewrite (_call_api_run _ _ _ _ _ H).
  cbn [transform_arguments arguments method Register]. by rewrite Ht, Hv, Hr.
Qed.

(** C7: [RegisteredUsers] through [_call_api] never gives a result; with
    the argument it requires and the reply [{}] the call raises
    [TypeError] after the server was called. *)
Theorem RegisteredUsers_dispatch_TypeError :
  (forall base SA self kwargs w,
     is_Return (_call_api self (RegisteredUsers base SA) kwargs w).1 = false)
  /\ (let out := _call_api example_client RegisteredUsers_ 0%nat
                   (replying (PDict ∅) host_kwargs) in
      out.1 = Raise TypeError
      /\ calls out.2 = [Call "registered_users" [PDict host_kwargs]]).
Proof.
  split.
  - intros. by eapply dispatch_never_returns.
  - cbv zeta. split; vm_compute; reflexivity.
Qed.

(** C8: [GetRoomOptions] through [_call_api] never gives a result; with
    the arguments it requires and the reply of the example the call
    raises [TypeError] after the server was called. *)
Theorem GetRoomOptions_dispatch_TypeError :
  (forall base SA self kwargs w,
     is_Return (_call_api self (GetRoomOptions base SA) kwargs w).1 = false)
  /\ (let out := _call_api example_client GetRoomOptions_ 0%nat
                   (replying room_options_reply room_kwargs) in
      out.1 = Raise TypeError
      /\ calls out.2 = [Call "get_room_options" [PDict room_kwargs]]).
Proof.
  split.
  - intros. by eapply dispatch_never_returns.
  - cbv zeta. split; vm_compute; reflexivity.
Qed.

(** C10: none of the six operations whose hook computes [res == 0] gives
    a result through [_call_api], with or without "res" in the reply; with
    complete arguments and the reply [{}], [UnRegister] raises
    [TypeError] after the server was called. *)
Theorem res_operations_dispatch_TypeError :
  (forall base SA sha self kwargs w,
     is_Return (_call_api self (UnRegister base SA) kwargs w).1 = false
     /\ is_Return (_call_api self (ChangePassword base SA) kwargs w).1 = false
     /\ is_Return (_call_api self (CheckPasswordHash base SA sha) kwargs w).1 = false
     /\ is_Return (_call_api self (SetNickname base SA) kwargs w).1 = false
     /\ is_Return (_call_api self (CreateRoom base SA) kwargs w).1 = false
     /\ is_Return (_call_api self (DestroyRoom base SA) kwargs w).1 = false)
  /\ (let out := _call_api example_client UnRegister_ 0%nat
                   (replying (PDict ∅) unregister_kwargs) in
      out.1 = Raise TypeError
      /\ calls out.2 = [Call "unregister" [PDict unregister_kwargs]]).
Proof.
  split.
  - intros. repeat split; by eapply dispatch_never_returns.
  - cbv zeta. split; vm_compute; reflexivity.
Qed.

(** * Further properties of the dispatcher and of the hooks *)

(** ** The validation loop (client.py, [_call_api]) *)

(** X1: the loop succeeds exactly when every descriptor is satisfied: a
    required argument is present, and the validator accepts the value
    bound to the name ([None] when the name is absent). *)
Theorem validate_arguments_passes_iff descriptors args :
  validate_arguments descriptors args = Return tt
  <-> Forall (descriptor_passes args) descriptors.
Proof.
  induction descriptors as [|a rest IH]; cbn [validate_arguments].
  - split; [constructor|done].
  - rewrite Forall_cons, <- IH. unfold descriptor_passes.
    generalize (validate (validator_class a) (default PNone (args !! name a))).
    intros r. destruct (required a); cbn [andb].
    + destruct (args !! name a) as [v|].
      * rewrite bool_decide_eq_true_2 by eauto. cbn [negb].
        destruct r as [[]|e]; cbn.
        -- split; [by eauto|by intros [_ ?]].
        -- split; [done|by intros [[_ ?] _]].
      * rewrite bool_decide_eq_false_2 by (by intros [? ?]). cbn [negb].
        split; [done|]. intros [[Hin _] _]. by destruct (Hin eq_refl).
    + destruct r as [[]|e]; cbn.
      * split; [by eauto|by intros [_ ?]].
      * split; [done|by intros [[_ ?] _]].
Qed.

(** X2: a keyword that no descriptor names is not looked at: adding it,
    with any value, does not change the outcome of the loop. *)
Theorem validate_arguments_undeclared descriptors args k v :
  Forall (fun a => name a <> k) descriptors ->
  validate_arguments descriptors (<[k := v]> args)
  = validate_arguments descriptors args.
Proof.
  induction 1 as [|a rest Hne _ IH]; [done|].
  cbn [validate_arguments]. rewrite lookup_insert_ne by done.
  destruct (required a && _); [done|].
  destruct (validate (validator_class a) _) as [[]|e]; [|done].
  exact IH.
Qed.

Lemma validate_arguments_undeclared_witness :
  Forall (fun a => name a <> "nickname") (arguments Register_)
  /\ validate_arguments (arguments Register_)
       (<["nickname" := PInt 7]> full_register_kwargs)
     = validate_arguments (arguments Register_) full_register_kwargs.
Proof.
  assert (H : Forall (fun a => name a <> "nickname") (arguments Register_)).
  { repeat constructor; discriminate. }
  split; [exact H|].
  exact (validate_arguments_undeclared (arguments Register_)
           full_register_kwargs "nickname" (PInt 7) H).
Defined.

(** X3: for a name that only optional descriptors use, leaving the
    keyword out and passing [None] for it are the same to the loop. *)
Theorem validate_arguments_optional_None descriptors args k :
  args !! k = None ->
  Forall (fun a => name a = k -> required a = false) descriptors ->
  validate_arguments descriptors (<[k := PNone]> args)
  = validate_arguments descriptors args.
Proof.
  intros Habs. induction 1 as [|a rest Hopt _ IH]; [done|].
  cbn [validate_arguments]. destruct (decide (name a = k)) as [Heq|Hne].
  - rewrite (Hopt Heq), Heq, lookup_insert_eq, Habs. cbn [andb].
    change (default PNone (Some PNone)) with PNone.
    change (default PNone None) with PNone.
    destruct (validate (validator_class a) PNone) as [[]|e]; [|done].
    exact IH.
  - rewrite lookup_insert_ne by done.
    destruct (required a && _); [done|].
    destruct (validate (validator_class a) _) as [[]|e]; [|done].
    exact IH.
Qed.

Lemma validate_arguments_optional_None_witness :
  let descriptors := [core.StringArgument "user"; optional_nickname] in
  let args : dict := <["user" := PStr "alice"]> ∅ in
  (args !! "nickname" = None
   /\ Forall (fun a => name a = "nickname" -> required a = false) descriptors)
  /\ validate_arguments descriptors (<["nickname" := PNone]> args)
     = validate_arguments descriptors args.
Proof.
  cbv zeta.
  assert (H : Forall (fun a => name a = "nickname" -> required a = false)
                [core.StringArgument "user"; optional_nickname]).
  { apply Forall_cons_2; [discriminate|].
    apply Forall_cons_2; [done|]. apply Forall_nil_2. }
  split; [split; [reflexivity|exact H]|].
  exact (validate_arguments_optional_None
           [core.StringArgument "user"; optional_nickname]
           (<["user" := PStr "alice"]> ∅) "nickname" eq_refl H).
Defined.

(** ** One dispatch, at most one request (client.py, [_call_api]) *)

(** X4: a call of [_call_api] leaves the earlier requests as they are and
    adds at most one, to the method the descriptor names: nothing is
    retried, whatever fails. *)
Theorem at_most_one_request self api kwargs w :
  exists suffix,
    calls (_call_api self api kwargs w).2 = calls w ++ suffix
    /\ (suffix = [] \/ exists positional, suffix = [Call (method api) positional]).
Proof.
  destruct (heap w !! kwargs) as [d|] eqn:H.
  - rewrite (_call_api_run _ _ _ _ _ H).
    destruct (transform_arguments api _ d) as [args|e];
      [|exists []; by rewrite app_nil_r; auto].
    destruct (validate_arguments (arguments api) args) as [[]|e];
      [|exists []; by rewrite app_nil_r; auto].
    cbv zeta. exists [Call (method api) (positional_of self api args)].
    destruct (remote w (method api) _); by eauto.
  - rewrite (_call_api_dangling _ _ _ _ H). exists [].
    by rewrite app_nil_r; auto.
Qed.

(** X5: an error of the transport comes out of [_call_api] as it is, after
    the one request was made; the response hooks have no say. *)
Theorem transport_error_propagates self api kwargs w d args e :
  heap w !! kwargs = Some d ->
  transform_arguments api [PDict (context self)] d = Return args ->
  validate_arguments (arguments api) args = Return tt ->
  remote w (method api) (positional_of self api args) = Raise e ->
  (_call_api self api kwargs w).1 = Raise e
  /\ calls (_call_api self api kwargs w).2
     = calls w ++ [Call (method api) (positional_of self api args)].
Proof.
  intros H Ht Hv Hr. by rewrite (_call_api_run _ _ _ _ _ H), Ht, Hv, Hr.
Qed.

Lemma transport_error_propagates_witness :
  let e := TransportError (PStr "connection refused") in
  let w := failing e full_register_kwargs in
  (heap w !! 0%nat = Some full_register_kwargs
   /\ transform_arguments Register_ [PDict (context example_client)]
        full_register_kwargs = Return full_register_kwargs
   /\ validate_arguments (arguments Register_) full_register_kwargs = Return tt
   /\ remote w (method Register_)
        (positional_of example_client Register_ full_register_kwargs) = Raise e)
  /\ (_call_api example_client Register_ 0%nat w).1 = Raise e
  /\ calls (_call_api example_client Register_ 0%nat w).2
     = [Call "register" [PDict full_register_kwargs]].
Proof.
  cbv zeta. split; [repeat split; vm_compute; reflexivity|].
  exact (transport_error_propagates example_client Register_ 0%nat
           (failing (TransportError (PStr "connection refused"))
              full_register_kwargs)
           full_register_kwargs full_register_kwargs
           (TransportError (PStr "connection refused"))
           eq_refl eq_refl eq_refl eq_refl).
Defined.

(** X6: once the server has replied, [validate_response] is asked first:
    its error is the outcome; only if it returns does the outcome come
    from [transform_response], result or error. *)
Theorem response_hooks_in_order self api kwargs w d args response :
  heap w !! kwargs = Some d ->
  transform_arguments api [PDict (context self)] d = Return args ->
  validate_arguments (arguments api) args = Return tt ->
  remote w (method api) (positional_of self api args) = Return response ->
  (_call_api self api kwargs w).1 =
    match validate_response api (hook_positional self api args response) with
    | Raise e => Raise e
    | Return _ => transform_response api (hook_positional self api args response)
    end.
Proof.
  intros H Ht Hv Hr. by rewrite (_call_api_run _ _ _ _ _ H), Ht, Hv, Hr.
Qed.

Lemma response_hooks_in_order_witness :
  let kw := register_kwargs (PStr "alice") (PStr "secret") in
  let reply := PDict {["res" := PInt 0]} in
  let w := replying reply kw in
  (heap w !! 0%nat = Some kw
   /\ transform_arguments drops_password [PDict (context example_client)] kw
      = Return (delete "password" kw)
   /\ validate_arguments (arguments drops_password) (delete "password" kw)
      = Return tt
   /\ remote w (method drops_password)
        (positional_of example_client drops_password (delete "password" kw))
      = Return reply)
  /\ (_call_api example_client drops_password 0%nat w).1 = Return reply.
Proof.
  cbv zeta. split; [repeat split; vm_compute; reflexivity|].
  exact (response_hooks_in_order example_client drops_password 0%nat
           (replying (PDict {["res" := PInt 0]})
              (register_kwargs (PStr "alice") (PStr "secret")))
           (register_kwargs (PStr "alice") (PStr "secret"))
           (delete "password" (register_kwargs (PStr "alice") (PStr "secret")))
           (PDict {["res" := PInt 0]})
           eq_refl eq_refl eq_refl eq_refl).
Defined.

(** X23: a descriptor that authenticates makes the proxy method receive
    two positional arguments: the credentials (user name, XMPP domain and
    password of the client, under "user", "server" and "password") and
    then the transformed arguments. *)
Theorem authenticated_request_carries_credentials self api kwargs w d args :
  authenticate api = true ->
  heap w !! kwargs = Some d ->
  transform_arguments api [PDict (context self)] d = Return args ->
  validate_arguments (arguments api) args = Return tt ->
  exists credentials : dict,
    calls (_call_api self api kwargs w).2
      = calls w ++ [Call (method api) [PDict credentials; PDict args]]
    /\ credentials !! "user" = Some (username self)
    /\ credentials !! "server" = Some (xmpp_domain self)
    /\ credentials !! "password" = Some (password self)
    /\ dom credentials = {["user"; "server"; "password"]}.
Proof.
  intros Hauth H Ht Hv. exists (auth self). split; [|split; [|split; [|split]]].
  - rewrite (_call_api_run _ _ _ _ _ H), Ht, Hv.
    unfold positional_of. rewrite Hauth. cbn [negb].
    by destruct (remote w (method api) _).
  - apply lookup_insert_eq.
  - unfold auth. rewrite lookup_insert_ne by done. apply lookup_insert_eq.
  - unfold auth. rewrite lookup_insert_ne by done.
    rewrite lookup_insert_ne by done. apply lookup_insert_eq.
  - unfold auth. rewrite !dom_insert_L, dom_empty_L.
    by rewrite (right_id_L ∅ (∪)), (assoc_L (∪)).
Qed.

Lemma authenticated_request_carries_credentials_witness :
  let w := replying (PDict {["repeated" := PStr "hello"]}) echo_kwargs in
  (authenticate Echo_authenticated = true
   /\ heap w !! 0%nat = Some echo_kwargs
   /\ transform_arguments Echo_authenticated [PDict (context example_client)]
        echo_kwargs = Return echo_kwargs
   /\ validate_arguments (arguments Echo_authenticated) echo_kwargs = Return tt)
  /\ exists credentials : dict,
       calls (_call_api example_client Echo_authenticated 0%nat w).2
         = [Call "echothisnew" [PDict credentials; PDict echo_kwargs]]
       /\ credentials !! "password" = Some (PStr "admin-secret").
Proof.
  cbv zeta. split; [repeat split; vm_compute; reflexivity|].
  destruct (authenticated_request_carries_credentials example_client
              Echo_authenticated 0%nat
              (replying (PDict {["repeated" := PStr "hello"]}) echo_kwargs)
              echo_kwargs echo_kwargs eq_refl eq_refl eq_refl eq_refl)
    as (credentials & Hc & _ & _ & Hp & _).
  exists credentials. split; [exact Hc|exact Hp].
Defined.

(** ** The response hooks of definitions.py, called as they are declared *)

(** X7: a reply that is not a struct (a bare number, a string, a list)
    makes every response hook raise [AttributeError], and the response
    validation of [Register] too. *)
Theorem hooks_reject_non_dict_reply base SA sha api args response :
  (forall d, response <> PDict d) ->
  Forall (fun hook => hook [api; args; response] = Raise AttributeError)
    (response_hooks base SA sha)
  /\ validate_response (Register base SA) [api; args; response]
     = Raise AttributeError.
Proof.
  intros Hnd. destruct response as [| | | | |d|];
    try (by destruct (Hnd d)); split; try reflexivity;
    repeat (apply Forall_cons_2; [reflexivity|]); apply Forall_nil_2.
Qed.

Lemma hooks_reject_non_dict_reply_witness :
  (forall d, PInt 0 <> PDict d)
  /\ Forall (fun hook => hook [PObject "api"; PDict ∅; PInt 0] = Raise AttributeError)
       (response_hooks core.API_defaults core.StringArgument example_hash).
Proof.
  assert (H : forall d, PInt 0 <> PDict d) by discriminate.
  split; [exact H|].
  exact (proj1 (hooks_reject_non_dict_reply core.API_defaults
                  core.StringArgument example_hash (PObject "api") (PDict ∅)
                  (PInt 0) H)).
Defined.



(** *** [MucOnlineRooms.transform_response] *)

Lemma mapR_get_dicts key default_ (ds : list dict) :
  mapR (fun r => py_get r key default_) (PDict <$> ds)
  = Return ((fun d : dict => default default_ (d !! key)) <$> ds).
Proof.
  induction ds as [|d ds IH]; [done|].
  cbn [fmap list_fmap mapR]. fold (fmap (M:=list) PDict ds).
  rewrite IH. reflexivity.
Qed.

Lemma mapR_get_non_dict key default_ (items : list pyval) :
  Exists (fun x => forall d, x <> PDict d) items ->
  mapR (fun r => py_get r key default_) items = Raise AttributeError.
Proof.
  induction 1 as [x rest Hx | x rest _ IH]; cbn [mapR].
  - destruct x as [| | | | |d|]; try reflexivity. by destruct (Hx d).
  - rewrite IH. by destruct x.
Qed.

(** X10: when "rooms" is a list of structs the hook returns the "room"
    entries in the same order, one per struct, with [None] for a struct
    that has none; without "rooms" it returns the empty list. *)
Theorem MucOnlineRooms_hook_rooms base SA api args (reply : dict) (ds : list dict) :
  reply !! "rooms" = Some (PList (PDict <$> ds))
    \/ (reply !! "rooms" = None /\ ds = []) ->
  transform_response (MucOnlineRooms base SA) [api; args; PDict reply]
  = Return (PList ((fun d : dict => default PNone (d !! "room")) <$> ds)).
Proof.
  intros [H | [H ->]]; cbn; rewrite H; cbn.
  - fold (fmap (M:=list) PDict ds). by rewrite mapR_get_dicts.
  - by rewrite map_to_list_empty.
Qed.

Lemma MucOnlineRooms_hook_rooms_witness :
  let ds : list dict := [{["room" := PStr "lobby"]}; {["room" := PStr "vip"]}] in
  (rooms_reply !! "rooms" = Some (PList (PDict <$> ds))
     \/ (rooms_reply !! "rooms" = None /\ ds = []))
  /\ transform_response (MucOnlineRooms core.API_defaults core.StringArgument)
       [PObject "api"; PDict host_kwargs; PDict rooms_reply]
     = Return (PList [PStr "lobby"; PStr "vip"]).
Proof.
  cbv zeta. split; [left; reflexivity|].
  exact (MucOnlineRooms_hook_rooms core.API_defaults core.StringArgument
           (PObject "api") (PDict host_kwargs) rooms_reply
           [{["room" := PStr "lobby"]}; {["room" := PStr "vip"]}]
           (or_introl eq_refl)).
Defined.

(** X11: one item of "rooms" that is not a struct makes the hook raise
    [AttributeError]; no partial list is returned. *)
Theorem MucOnlineRooms_hook_bad_item base SA api args (reply : dict) items :
  reply !! "rooms" = Some (PList items) ->
  Exists (fun x => forall d, x <> PDict d) items ->
  transform_response (MucOnlineRooms base SA) [api; args; PDict reply]
  = Raise AttributeError.
Proof.
  intros H Hbad. cbn. rewrite H. cbn. by rewrite mapR_get_non_dict.
Qed.

Lemma MucOnlineRooms_hook_bad_item_witness :
  let items := [PDict {["room" := PStr "lobby"]}; PStr "vip"] in
  let reply : dict := {["rooms" := PList items]} in
  (reply !! "rooms" = Some (PList items)
   /\ Exists (fun x => forall d, x <> PDict d) items)
  /\ transform_response (MucOnlineRooms core.API_defaults core.StringArgument)
       [PObject "api"; PDict host_kwargs; PDict reply]
     = Raise AttributeError.
Proof.
  cbv zeta.
  assert (H : Exists (fun x => forall d, x <> PDict d)
                [PDict {["room" := PStr "lobby"]}; PStr "vip"]).
  { apply Exists_cons_tl, Exists_cons_hd. discriminate. }
  split; [split; [reflexivity|exact H]|].
  exact (MucOnlineRooms_hook_bad_item core.API_defaults core.StringArgument
           (PObject "api") (PDict host_kwargs)
           {["rooms" := PList [PDict {["room" := PStr "lobby"]}; PStr "vip"]]}
           [PDict {["room" := PStr "lobby"]}; PStr "vip"] eq_refl H).
Defined.

(** *** [GetRoomOptions.transform_response] *)

Lemma fold_options_app l1 l2 acc :
  fold_options (l1 ++ l2) acc = (acc' ← fold_options l1 acc; fold_options l2 acc').
Proof.
  revert acc. induction l1 as [|o l1 IH]; intros acc; [done|].
  cbn [app fold_options].
  destruct (py_get o "option" PNone) as [option|e]; [|done]. cbn.
  destruct option; try apply IH;
    (destruct (py_unpack2 _) as [pair|e]; [|done]; cbn;
     destruct (py_getitem pair.2 "value") as [value|e]; [|done]; cbn;
     destruct (py_getitem pair.1 "name") as [key|e]; [|done]; cbn;
     destruct (py_setitem acc key value) as [acc'|e]; [|done]; cbn;
     apply IH).
Qed.

Lemma foldl_insert_lookup_ne (entries : list (string * pyval)) (acc : dict) k :
  Forall (fun nv => nv.1 <> k) entries ->
  foldl (fun m nv => <[nv.1 := nv.2]> m) acc entries !! k = acc !! k.
Proof.
  intros H. revert acc. induction H as [|nv rest Hne _ IH]; intros acc; [done|].
  cbn [foldl]. by rewrite IH, lookup_insert_ne.
Qed.

(** X12: on a list of well-formed options the hook returns a mapping in
    which a name is bound to the value of its last entry, and in which
    only the names of the entries are bound. *)
Theorem GetRoomOptions_hook_last_wins base SA api args (reply : dict)
    (entries : list (string * pyval)) :
  reply !! "options" = Some (PList (option_entry <$> entries)) ->
  exists m,
    transform_response (GetRoomOptions base SA) [api; args; PDict reply]
      = Return (PDict m)
    /\ (forall before n v after,
          entries = before ++ (n, v) :: after ->
          Forall (fun nv => nv.1 <> n) after -> m !! n = Some v)
    /\ (forall k, Forall (fun nv => nv.1 <> k) entries -> m !! k = None).
Proof.
  intros H. exists (foldl (fun m nv => <[nv.1 := nv.2]> m) ∅ entries).
  split; [|split].
  - cbn. rewrite H. cbn. fold (fmap (M:=list) option_entry entries).
    by rewrite fold_options_entries.
  - intros before n v after -> Hafter. rewrite foldl_app. cbn [foldl].
    rewrite foldl_insert_lookup_ne by done. apply lookup_insert_eq.
  - intros k Hk. by rewrite foldl_insert_lookup_ne.
Qed.

Lemma GetRoomOptions_hook_last_wins_witness :
  let entries := [("title", PStr "Room A"); ("public", PBool true);
                  ("title", PStr "Room B")] in
  let reply : dict := {["options" := PList (option_entry <$> entries)]} in
  reply !! "options" = Some (PList (option_entry <$> entries))
  /\ exists m,
       transform_response GetRoomOptions_ [PObject "api"; PDict room_kwargs; PDict reply]
         = Return (PDict m)
       /\ m !! "title" = Some (PStr "Room B")
       /\ m !! "moderated" = None.
Proof.
  cbv zeta. split; [reflexivity|].
  destruct (GetRoomOptions_hook_last_wins core.API_defaults core.StringArgument
              (PObject "api") (PDict room_kwargs)
              {["options" := PList (option_entry <$>
                 [("title", PStr "Room A"); ("public", PBool true);
                  ("title", PStr "Room B")])]}
              [("title", PStr "Room A"); ("public", PBool true);
               ("title", PStr "Room B")] (lookup_singleton_eq _ _))
    as (m & Hm & Hlast & Hnone).
  exists m. split; [exact Hm|]. split.
  - apply (Hlast [("title", PStr "Room A"); ("public", PBool true)]
             "title" (PStr "Room B") []); [reflexivity|apply Forall_nil_2].
  - apply Hnone. repeat (apply Forall_cons_2; [discriminate|]). apply Forall_nil_2.
Defined.

(** X13: an item without "option", or with [None] there, is passed over
    wherever it stands in the list: the loop gives what it gives without
    the item. *)
Theorem fold_options_passes_over l1 o l2 acc :
  passed_over o ->
  fold_options (l1 ++ o :: l2) acc = fold_options (l1 ++ l2) acc.
Proof.
  intros (d & -> & Hd). rewrite !fold_options_app.
  destruct (fold_options l1 acc) as [acc'|e]; [|done]. cbn.
  by destruct Hd as [-> | ->].
Qed.

Lemma fold_options_passes_over_witness :
  let l1 := [option_entry ("title", PStr "Room A")] in
  let l2 := [option_entry ("public", PBool true)] in
  passed_over (PDict ∅)
  /\ fold_options (l1 ++ PDict ∅ :: l2) ∅
     = Return (<["public" := PBool true]> {["title" := PStr "Room A"]}).
Proof.
  cbv zeta.
  assert (H : passed_over (PDict ∅)) by (exists ∅; by auto).
  split; [exact H|].
  rewrite (fold_options_passes_over
             [option_entry ("title", PStr "Room A")] (PDict ∅)
             [option_entry ("public", PBool true)] ∅ H).
  vm_compute. reflexivity.
Defined.

(** X14: an option that is a list of any length but two stops the loop
    with [ValueError], also after well-formed entries: what was folded so
    far is lost. *)
Theorem fold_options_wrong_length (entries : list (string * pyval)) items rest acc :
  length items <> 2%nat ->
  fold_options
    ((option_entry <$> entries) ++ PDict {["option" := PList items]} :: rest) acc
  = Raise ValueError.
Proof.
  intros Hlen. rewrite fold_options_app, fold_options_entries. cbn.
  rewrite lookup_singleton_eq. cbn.
  destruct items as [|a [|b [|c items]]]; try reflexivity. by destruct Hlen.
Qed.

Lemma fold_options_wrong_length_witness :
  length [PDict {["name" := PStr "title"]}] <> 2%nat
  /\ fold_options
       ((option_entry <$> [("public", PBool true)]) ++
        PDict {["option" := PList [PDict {["name" := PStr "title"]}]]} :: []) ∅
     = Raise ValueError.
Proof.
  assert (H : length [PDict {["name" := PStr "title"]}] <> 2%nat) by discriminate.
  split; [exact H|].
  exact (fold_options_wrong_length [("public", PBool true)]
           [PDict {["name" := PStr "title"]}] [] ∅ H).
Defined.

(** X15: the value is looked up before the name: a pair whose second
    struct has no "value" raises [KeyError] for "value", whatever the
    first element of the pair is. *)
Theorem fold_options_value_first (entries : list (string * pyval))
    name_dict (value_dict : dict) rest acc :
  value_dict !! "value" = None ->
  fold_options
    ((option_entry <$> entries) ++
     PDict {["option" := PList [name_dict; PDict value_dict]]} :: rest) acc
  = Raise (KeyError "value").
Proof.
  intros Hv. rewrite fold_options_app, fold_options_entries. cbn.
  rewrite lookup_singleton_eq. cbn. by rewrite Hv.
Qed.

Lemma fold_options_value_first_witness :
  (∅ : dict) !! "value" = None
  /\ fold_options
       ((option_entry <$> []) ++
        PDict {["option" := PList [PInt 3; PDict ∅]]} :: []) ∅
     = Raise (KeyError "value").
Proof.
  split; [reflexivity|].
  exact (fold_options_value_first [] (PInt 3) ∅ [] ∅ eq_refl).
Defined.

(** *** [CheckPasswordHash.transform_arguments], called with keywords only *)

(** X16: without a "password" keyword the hook raises [KeyError]; an
    error of the hash function comes out as it is. *)
Theorem CheckPasswordHash_hook_errors base SA sha (kwargs : dict) :
  (kwargs !! "password" = None ->
     transform_arguments (CheckPasswordHash base SA sha) [] kwargs
     = Raise (KeyError "password"))
  /\ (forall plain e,
        kwargs !! "password" = Some plain -> sha plain = Raise e ->
        transform_arguments (CheckPasswordHash base SA sha) [] kwargs = Raise e).
Proof.
  split.
  - intros H. cbn. by rewrite H.
  - intros plain e H He. cbn. rewrite H. cbn. by rewrite He.
Qed.

Lemma CheckPasswordHash_hook_errors_witness :
  let hook := transform_arguments
                (CheckPasswordHash core.API_defaults core.StringArgument example_hash)
                [] in
  ((<["user" := PStr "alice"]> ∅ : dict) !! "password" = None
   /\ hook (<["user" := PStr "alice"]> ∅) = Raise (KeyError "password"))
  /\ ((<["password" := PInt 5]> ∅ : dict) !! "password" = Some (PInt 5)
      /\ example_hash (PInt 5) = Raise TypeError
      /\ hook (<["password" := PInt 5]> ∅) = Raise TypeError).
Proof.
  cbv zeta. split.
  - split; [reflexivity|].
    exact (proj1 (CheckPasswordHash_hook_errors core.API_defaults
                    core.StringArgument example_hash
                    (<["user" := PStr "alice"]> ∅)) eq_refl).
  - split; [reflexivity|]. split; [reflexivity|].
    exact (proj2 (CheckPasswordHash_hook_errors core.API_defaults
                    core.StringArgument example_hash
                    (<["password" := PInt 5]> ∅)) (PInt 5) TypeError
             eq_refl eq_refl).
Defined.

(** X17: the hook touches three keys only: every other keyword of the
    caller is in the transformed arguments with the value it had. *)
Theorem CheckPasswordHash_hook_frame base SA sha (kwargs : dict) plain hashed :
  kwargs !! "password" = Some plain ->
  sha plain = Return hashed ->
  exists args : dict,
    transform_arguments (CheckPasswordHash base SA sha) [] kwargs = Return args
    /\ (forall k, k <> "password" -> k <> "passwordhash" -> k <> "hashmethod" ->
          args !! k = kwargs !! k).
Proof.
  intros Hp Hs. eexists. split.
  - cbn. rewrite Hp. cbn. rewrite Hs. reflexivity.
  - intros k H1 H2 H3.
    by rewrite !lookup_insert_ne, lookup_delete_ne.
Qed.

Lemma CheckPasswordHash_hook_frame_witness :
  let kwargs : dict :=
    <["user" := PStr "alice"]>
      (<["password" := PStr "secret"]> (<["hashmethod" := PStr "md5"]> ∅)) in
  (kwargs !! "password" = Some (PStr "secret")
   /\ example_hash (PStr "secret")
      = Return (PStr "e5e9fa1ba31ecd1ae84f75caaa474f3a663f05f4"))
  /\ exists args : dict,
       transform_arguments
         (CheckPasswordHash core.API_defaults core.StringArgument example_hash)
         [] kwargs = Return args
       /\ args !! "user" = Some (PStr "alice").
Proof.
  cbv zeta.
  assert (Hp : (<["user" := PStr "alice"]>
                  (<["password" := PStr "secret"]>
                     (<["hashmethod" := PStr "md5"]> (∅ : dict))))
               !! "password" = Some (PStr "secret")) by (vm_compute; reflexivity).
  split; [split; [exact Hp|reflexivity]|].
  destruct (CheckPasswordHash_hook_frame core.API_defaults core.StringArgument
              example_hash _ (PStr "secret")
              (PStr "e5e9fa1ba31ecd1ae84f75caaa474f3a663f05f4")
              Hp eq_refl) as (args & Ha & Hframe).
  exists args. split; [exact Ha|].
  rewrite Hframe by discriminate. vm_compute. reflexivity.
Defined.

(** ** The public methods (client.py) *)

(** X18: whatever the base class, the descriptor constructor, the hash
    function, the arguments and the server are, none of the seven public
    methods of the client returns a value: each of them raises. *)
Theorem public_methods_never_return base SA sha self a b w :
  is_Return (echo base SA self a w).1 = false
  /\ is_Return (registered_users base SA self w).1 = false
  /\ is_Return (register base SA self a b w).1 = false
  /\ is_Return (unregister base SA self a w).1 = false
  /\ is_Return (change_password base SA self a b w).1 = false
  /\ is_Return (check_password_hash base SA sha self a b w).1 = false
  /\ is_Return (set_nickname base SA self a b w).1 = false.
Proof.
  unfold echo, registered_users, register, unregister, change_password,
    check_password_hash, set_nickname.
  rewrite !alloc_then_call.
  repeat split; by eapply dispatch_never_returns.
Qed.

(** X19: [Echo] and [MucOnlineRooms], the two classes with hooks of their
    own that remain, never give a result through [_call_api] either. *)
Theorem Echo_MucOnlineRooms_never_return base SA self kwargs w :
  is_Return (_call_api self (Echo base SA) kwargs w).1 = false
  /\ is_Return (_call_api self (MucOnlineRooms base SA) kwargs w).1 = false.
Proof. split; by eapply dispatch_never_returns. Qed.

(** X20: [echo] needs nothing but its sentence: when the hook of the base
    class returns the keywords as they are and the validator accepts the
    sentence, the request goes out, and a reply of the server ends in
    [TypeError]: the server has been called although the call fails. *)
Theorem echo_calls_then_fails base SA self sentence w response :
  let kw : dict := <["sentence" := sentence]> ∅ in
  transform_arguments base [PDict (context self)] kw = Return kw ->
  validate_arguments [SA "sentence"] kw = Return tt ->
  remote w "echothisnew" (positional_of self (Echo base SA) kw) = Return response ->
  validate_response base (hook_positional self (Echo base SA) kw response)
    = Return tt ->
  (echo base SA self sentence w).1 = Raise TypeError
  /\ calls (echo base SA self sentence w).2
     = calls w ++ [Call "echothisnew" (positional_of self (Echo base SA) kw)].
Proof.
  cbv zeta. intros Ht Hv Hr Hvr. unfold echo. rewrite alloc_then_call.
  rewrite (_call_api_run _ _ _ _ _ (lookup_grow_fresh _ _)).
  cbn [transform_arguments arguments method validate_response
       transform_response Echo].
  rewrite Ht, Hv. cbv zeta. cbn [remote grow]. rewrite Hr.
  cbn [method Echo] in Hvr. rewrite Hvr. split; reflexivity.
Qed.

Lemma echo_calls_then_fails_witness :
  let kw : dict := <["sentence" := PStr "hello"]> ∅ in
  let w := replying (PDict {["repeated" := PStr "hello"]}) ∅ in
  let base := core.API_defaults in
  let SA := core.StringArgument in
  (transform_arguments base [PDict (context example_client)] kw = Return kw
   /\ validate_arguments [SA "sentence"] kw = Return tt
   /\ remote w "echothisnew" (positional_of example_client (Echo base SA) kw)
      = Return (PDict {["repeated" := PStr "hello"]})
   /\ validate_response base
        (hook_positional example_client (Echo base SA) kw
           (PDict {["repeated" := PStr "hello"]})) = Return tt)
  /\ (echo base SA example_client (PStr "hello") w).1 = Raise TypeError
  /\ calls (echo base SA example_client (PStr "hello") w).2
     = [Call "echothisnew" [PDict kw]].
Proof.
  cbv zeta. split; [repeat split; reflexivity|].
  exact (echo_calls_then_fails core.API_defaults core.StringArgument
           example_client (PStr "hello")
           (replying (PDict {["repeated" := PStr "hello"]}) ∅)
           (PDict {["repeated" := PStr "hello"]})
           eq_refl eq_refl eq_refl eq_refl).
Defined.

(** ** The endpoint (client.py, [service_url]) *)

Lemma append_colon_inj s1 t1 s2 t2 :
  occurs ":" s1 = false -> occurs ":" s2 = false ->
  s1 +:+ String ":" t1 = s2 +:+ String ":" t2 ->
  s1 = s2 /\ t1 = t2.
Proof.
  revert s2. induction s1 as [|a s1 IH]; intros [|b s2]; cbn; intros H1 H2 Heq.
  - by injection Heq.
  - injection Heq as <- _. by rewrite bool_decide_eq_true_2 in H2.
  - injection Heq as -> _. by rewrite bool_decide_eq_true_2 in H1.
  - injection Heq as -> Heq.
    apply orb_false_elim in H1 as [_ H1]. apply orb_false_elim in H2 as [_ H2].
    by destruct (IH s2 H1 H2 Heq) as [-> ->].
Qed.

Lemma append_slash_inj s s' : s +:+ "/" = s' +:+ "/" -> s = s'.
Proof.
  revert s'. induction s as [|a s IH]; intros [|b s']; cbn; intros Heq.
  - done.
  - injection Heq as _ Heq. by destruct s'.
  - injection Heq as _ Heq. by destruct s.
  - injection Heq as -> Heq. by rewrite (IH s' Heq).
Qed.

(** X21: for protocols and hosts without a colon and integer ports, the
    endpoint tells the three apart: two clients with the same
    [service_url] have the same protocol, host and port. *)
Theorem service_url_injective self self' p h n p' h' n' :
  plain_endpoint self p h n ->
  plain_endpoint self' p' h' n' ->
  service_url self = service_url self' ->
  p = p' /\ h = h' /\ n = n'.
Proof.
  intros (Hp & Hh & Hn & Hcp & Hch) (Hp' & Hh' & Hn' & Hcp' & Hch').
  unfold service_url. rewrite Hp, Hh, Hn, Hp', Hh', Hn'. cbn.
  intros Heq. injection Heq as Heq.
  apply append_colon_inj in Heq as [-> Heq]; [|done..].
  injection Heq as Heq.
  apply append_colon_inj in Heq as [-> Heq]; [|done..].
  apply append_slash_inj in Heq. by apply (inj pretty) in Heq as ->.
Qed.

Lemma service_url_injective_witness :
  let self := new_client (PStr "xmpp.example.com") (PInt 4560) (PStr "root")
                (PStr "other-secret") (PStr "example.org") None None None in
  (plain_endpoint self "https" "xmpp.example.com" 4560
   /\ plain_endpoint example_client "https" "xmpp.example.com" 4560
   /\ service_url self = service_url example_client)
  /\ ("https" = "https" /\ "xmpp.example.com" = "xmpp.example.com"
      /\ 4560 = 4560).
Proof.
  cbv zeta.
  assert (H1 : plain_endpoint
                 (new_client (PStr "xmpp.example.com") (PInt 4560) (PStr "root")
                    (PStr "other-secret") (PStr "example.org") None None None)
                 "https" "xmpp.example.com" 4560) by (repeat split).
  assert (H2 : plain_endpoint example_client "https" "xmpp.example.com" 4560)
    by (repeat split).
  split; [split; [exact H1|split; [exact H2|reflexivity]]|].
  exact (service_url_injective _ _ _ _ _ _ _ _ H1 H2 eq_refl).
Defined.

(** ** Errors of the argument hook (client.py, [_call_api]) *)

(** X22: an error of [transform_arguments] comes out of [_call_api] as it
    is; nothing is validated and no request is made. *)
Theorem hook_error_propagates self api kwargs w d e :
  heap w !! kwargs = Some d ->
  transform_arguments api [PDict (context self)] d = Raise e ->
  (_call_api self api kwargs w).1 = Raise e
  /\ calls (_call_api self api kwargs w).2 = calls w.
Proof.
  intros H Ht. by rewrite (_call_api_run _ _ _ _ _ H), Ht.
Qed.

Lemma hook_error_propagates_witness :
  let api := CheckPasswordHash core.API_defaults core.StringArgument example_hash in
  let kw := register_kwargs (PStr "alice") (PStr "secret") in
  let w := replying (PDict {["res" := PInt 0]}) kw in
  (heap w !! 0%nat = Some kw
   /\ transform_arguments api [PDict (context example_client)] kw = Raise TypeError)
  /\ (_call_api example_client api 0%nat w).1 = Raise TypeError
  /\ calls (_call_api example_client api 0%nat w).2 = [].
Proof.
  cbv zeta. split; [split; reflexivity|].
  exact (hook_error_propagates example_client
           (CheckPasswordHash core.API_defaults core.StringArgument example_hash)
           0%nat
           (replying (PDict {["res" := PInt 0]})
              (register_kwargs (PStr "alice") (PStr "secret")))
           (register_kwargs (PStr "alice") (PStr "secret")) TypeError
           eq_refl eq_refl).
Defined.
